(** * PortaPack radio front-end controller (firmware/application/radio.cpp)

  A shallow embedding of the tuning and mode-control core.  The controller
  of radio.cpp is a sequence of calls on five leaf objects (RF path
  switch, first mixer, second IF transceiver, baseband codec, baseband
  CPLD), one GPIO pin and the clock manager, plus three file-level
  variables.  Each controller function becomes a computation in a small
  state-and-trace monad: the state is the record [Radio], the trace is
  the list of leaf calls made, in program order. *)

From Stdlib Require Import ZArith List Bool Lia.
Import ListNotations.
Local Open Scope Z_scope.

(** ** Types shared with the collaborators *)

Module rf.

(** [rf::Frequency], a signed 64-bit count of hertz in the firmware. *)
Definition Frequency : Type := Z.

(** Modelled from the spec: the enumeration [rf::Direction] is declared
    outside radio.cpp; the data model gives it as (Receive, Transmit). *)
Inductive Direction : Type := Receive | Transmit.

Definition Direction_eqb (a b : Direction) : bool :=
  match a, b with
  | Receive, Receive | Transmit, Transmit => true
  | _, _ => false
  end.

Module path.

(** Modelled from the spec: the class [rf::path::Path] is declared
    outside radio.cpp.  The RF path selector keeps the last selected
    band, the direction and the RF-amp enable.  The band enumeration
    is not visible from radio.cpp and stays a type parameter. *)
Record Path (Band : Type) : Type := {
  band : Band;
  direction : Direction;
  rf_amp : bool
}.
Arguments band {Band} _.
Arguments direction {Band} _.
Arguments rf_amp {Band} _.

Definition set_band {Band} (new_band : Band) (p : Path Band) : Path Band :=
  {| band := new_band; direction := direction p; rf_amp := rf_amp p |}.

Definition set_direction {Band} (new_direction : Direction) (p : Path Band)
  : Path Band :=
  {| band := band p; direction := new_direction; rf_amp := rf_amp p |}.

Definition set_rf_amp {Band} (new_rf_amp : bool) (p : Path Band) : Path Band :=
  {| band := band p; direction := direction p; rf_amp := new_rf_amp |}.

End path.

End rf.

Module tuning.

(** Modelled from the spec: [tuning::config::Config] is declared outside
    radio.cpp.  The data model lists a validity flag, the first-LO
    frequency (0 when the first mixer is not needed), the second-LO
    frequency, the RF-path band and the mixer-inversion flag. *)
Record Config (Band : Type) : Type := {
  is_valid : bool;
  first_lo_frequency : rf.Frequency;
  second_lo_frequency : rf.Frequency;
  rf_path_band : Band;
  mixer_invert : bool
}.
Arguments is_valid {Band} _.
Arguments first_lo_frequency {Band} _.
Arguments second_lo_frequency {Band} _.
Arguments rf_path_band {Band} _.
Arguments mixer_invert {Band} _.

End tuning.

Module max283x.

(** Modelled from the spec: [max283x::Mode] is declared outside
    radio.cpp; the second IF stage has the modes receive, transmit and
    standby. *)
Inductive Mode : Type := Standby | Receive | Transmit.

End max283x.

(** The collaborators whose behaviour radio.cpp consumes without defining
  it: the tuning planner [tuning::config::create] (a pure function of the
  target frequency) and the range checks that the second IF stage
  applies to the values handed to it.  A setting function answers [None]
  when the stage rejects the request and [Some v] when it programs [v]
  (the request itself, or the request clamped into range). *)
Class Collaborators (Band : Type) : Type := {
tuning_config_create : rf.Frequency -> tuning.Config Band;
second_lo_in_range : rf.Frequency -> bool;
lna_gain_setting : Z -> option Z;
vga_gain_setting : Z -> option Z;
tx_vga_gain_setting : Z -> option Z;
lpf_rf_bandwidth_setting : Z -> option Z
}.

Module rffc507x.

(** Modelled from the spec: the class [rffc507x::RFFC507x] is declared
    outside radio.cpp.  The first mixer stage offers enable, disable and
    a frequency set for the first local oscillator. *)
Record RFFC507x : Type := {
  enabled : bool;
  lo_frequency : rf.Frequency
}.

Definition disable (s : RFFC507x) : RFFC507x :=
  {| enabled := false; lo_frequency := lo_frequency s |}.

Definition enable (s : RFFC507x) : RFFC507x :=
  {| enabled := true; lo_frequency := lo_frequency s |}.

Definition set_frequency (f : rf.Frequency) (s : RFFC507x) : RFFC507x :=
  {| enabled := enabled s; lo_frequency := f |}.

End rffc507x.

Module max2839.

(** Modelled from the spec: the class [max2839::MAX2839] is declared
    outside radio.cpp.  The second IF stage holds its mode, the second
    local-oscillator frequency, the three gains and the filter
    bandwidth.  A request outside a field's range is clamped or rejected
    by the stage, as the [Collaborators] instance decides; a rejected
    request leaves the field as it was. *)
Record MAX2839 : Type := {
  mode : max283x.Mode;
  lo_frequency : rf.Frequency;
  lna_gain : Z;
  vga_gain : Z;
  tx_vga_gain : Z;
  lpf_rf_bandwidth : Z
}.

Definition set_mode (m : max283x.Mode) (s : MAX2839) : MAX2839 :=
  {| mode := m; lo_frequency := lo_frequency s; lna_gain := lna_gain s;
     vga_gain := vga_gain s; tx_vga_gain := tx_vga_gain s;
     lpf_rf_bandwidth := lpf_rf_bandwidth s |}.

Definition keep_or (old : Z) (request : option Z) : Z :=
  match request with
  | Some v => v
  | None => old
  end.

(** [set_frequency] reports whether the stage took the frequency. *)
Definition set_frequency {Band} {hw : Collaborators Band}
  (f : rf.Frequency) (s : MAX2839) : bool * MAX2839 :=
  if second_lo_in_range f then
    (true,
     {| mode := mode s; lo_frequency := f; lna_gain := lna_gain s;
        vga_gain := vga_gain s; tx_vga_gain := tx_vga_gain s;
        lpf_rf_bandwidth := lpf_rf_bandwidth s |})
  else (false, s).

Definition set_lna_gain {Band} {hw : Collaborators Band}
  (db : Z) (s : MAX2839) : MAX2839 :=
  {| mode := mode s; lo_frequency := lo_frequency s;
     lna_gain := keep_or (lna_gain s) (lna_gain_setting db);
     vga_gain := vga_gain s; tx_vga_gain := tx_vga_gain s;
     lpf_rf_bandwidth := lpf_rf_bandwidth s |}.

Definition set_vga_gain {Band} {hw : Collaborators Band}
  (db : Z) (s : MAX2839) : MAX2839 :=
  {| mode := mode s; lo_frequency := lo_frequency s; lna_gain := lna_gain s;
     vga_gain := keep_or (vga_gain s) (vga_gain_setting db);
     tx_vga_gain := tx_vga_gain s;
     lpf_rf_bandwidth := lpf_rf_bandwidth s |}.

Definition set_tx_vga_gain {Band} {hw : Collaborators Band}
  (db : Z) (s : MAX2839) : MAX2839 :=
  {| mode := mode s; lo_frequency := lo_frequency s; lna_gain := lna_gain s;
     vga_gain := vga_gain s;
     tx_vga_gain := keep_or (tx_vga_gain s) (tx_vga_gain_setting db);
     lpf_rf_bandwidth := lpf_rf_bandwidth s |}.

Definition set_lpf_rf_bandwidth {Band} {hw : Collaborators Band}
  (bandwidth_minimum : Z) (s : MAX2839) : MAX2839 :=
  {| mode := mode s; lo_frequency := lo_frequency s; lna_gain := lna_gain s;
     vga_gain := vga_gain s; tx_vga_gain := tx_vga_gain s;
     lpf_rf_bandwidth :=
       keep_or (lpf_rf_bandwidth s)
               (lpf_rf_bandwidth_setting bandwidth_minimum) |}.

End max2839.

Module max5864.

(** Modelled from the spec: [max5864::Mode] and the class
    [max5864::MAX5864] are declared outside radio.cpp; the baseband
    codec has the modes receive, transmit and shutdown. *)
Inductive Mode : Type := Shutdown | Receive | Transmit.

Record MAX5864 : Type := { mode : Mode }.

Definition set_mode (m : Mode) (s : MAX5864) : MAX5864 := {| mode := m |}.

End max5864.

Module baseband.

(** Modelled from the spec: the class [baseband::CPLD] is declared
    outside radio.cpp; the programmable logic holds the single inversion
    bit. *)
Record CPLD : Type := { invert : bool }.

Definition set_invert (b : bool) (s : CPLD) : CPLD := {| invert := b |}.

End baseband.

Module Configuration.

(** Modelled from the spec: [radio::Configuration] is declared in
    radio.hpp; radio.cpp reads these seven fields of it. *)
Record t : Type := {
  tuning_frequency : rf.Frequency;
  rf_amp : bool;
  lna_gain : Z;
  vga_gain : Z;
  baseband_rate : Z;
  baseband_filter_bandwidth : Z;
  direction : rf.Direction
}.

End Configuration.

(** ** The controller state and its trace of leaf calls *)

Section Controller.

Context {Band : Type} {hw : Collaborators Band}.

(** The objects and variables at file level in radio.cpp.  The pin
    [gpio_not_ant_pwr] holds the level last written to it; the clock
    manager holds the sampling frequency last requested. *)
Record Radio : Type := {
  gpio_not_ant_pwr : Z;
  clock_manager : Z;
  rf_path : rf.path.Path Band;
  first_if : rffc507x.RFFC507x;
  second_if : max2839.MAX2839;
  baseband_codec : max5864.MAX5864;
  baseband_cpld : baseband.CPLD;
  direction : rf.Direction;
  baseband_invert : bool;
  mixer_invert : bool
}.

(** One constructor per method called on a collaborator. *)
Inductive Event : Type :=
| ev_gpio_not_ant_pwr_write (level : Z)
| ev_clock_manager_set_sampling_frequency (rate : Z)
| ev_rf_path_set_band (b : Band)
| ev_rf_path_set_direction (d : rf.Direction)
| ev_rf_path_set_rf_amp (rf_amp : bool)
| ev_first_if_disable
| ev_first_if_enable
| ev_first_if_set_frequency (f : rf.Frequency)
| ev_second_if_set_frequency (f : rf.Frequency)
| ev_second_if_set_mode (m : max283x.Mode)
| ev_second_if_set_lna_gain (db : Z)
| ev_second_if_set_vga_gain (db : Z)
| ev_second_if_set_tx_vga_gain (db : Z)
| ev_second_if_set_lpf_rf_bandwidth (bandwidth_minimum : Z)
| ev_baseband_codec_set_mode (m : max5864.Mode)
| ev_baseband_cpld_set_invert (invert : bool).

(** A computation reads and writes the radio and appends to the trace. *)
Definition M (A : Type) : Type := Radio -> A * Radio * list Event.

Definition ret {A} (a : A) : M A := fun st => (a, st, []).

Definition bind {A B} (m : M A) (k : A -> M B) : M B :=
  fun st =>
    let '(a, st1, t1) := m st in
    let '(b, st2, t2) := k a st1 in
    (b, st2, t1 ++ t2).

Definition result {A} (m : M A) (st : Radio) : A := fst (fst (m st)).
Definition state_after {A} (m : M A) (st : Radio) : Radio := snd (fst (m st)).
Definition trace {A} (m : M A) (st : Radio) : list Event := snd (m st).

(** A call on a collaborator: the state change it makes and its event. *)
Definition call (e : Event) (f : Radio -> Radio) : M unit :=
  fun st => (tt, f st, [e]).

(** An assignment to a file-level variable: no collaborator is called. *)
Definition assign (f : Radio -> Radio) : M unit :=
  fun st => (tt, f st, []).

Definition read {A} (f : Radio -> A) : M A :=
  fun st => (f st, st, []).

End Controller.

Arguments Radio Band : clear implicits.
Arguments Event Band : clear implicits.
Arguments M Band A : clear implicits.

Notation "x <- m ;; k" := (bind m (fun x => k))
  (at level 61, m at next level, right associativity).
Notation "m ;; k" := (bind m (fun _ => k))
  (at level 61, right associativity).

(** ** Field updates of the controller state *)

Section Updates.

Context {Band : Type}.

Definition with_gpio_not_ant_pwr (level : Z) (st : Radio Band) : Radio Band :=
  {| gpio_not_ant_pwr := level; clock_manager := clock_manager st;
     rf_path := rf_path st; first_if := first_if st;
     second_if := second_if st; baseband_codec := baseband_codec st;
     baseband_cpld := baseband_cpld st; direction := direction st;
     baseband_invert := baseband_invert st; mixer_invert := mixer_invert st |}.

Definition with_clock_manager (rate : Z) (st : Radio Band) : Radio Band :=
  {| gpio_not_ant_pwr := gpio_not_ant_pwr st; clock_manager := rate;
     rf_path := rf_path st; first_if := first_if st;
     second_if := second_if st; baseband_codec := baseband_codec st;
     baseband_cpld := baseband_cpld st; direction := direction st;
     baseband_invert := baseband_invert st; mixer_invert := mixer_invert st |}.

Definition with_rf_path (p : rf.path.Path Band) (st : Radio Band)
  : Radio Band :=
  {| gpio_not_ant_pwr := gpio_not_ant_pwr st;
     clock_manager := clock_manager st;
     rf_path := p; first_if := first_if st;
     second_if := second_if st; baseband_codec := baseband_codec st;
     baseband_cpld := baseband_cpld st; direction := direction st;
     baseband_invert := baseband_invert st; mixer_invert := mixer_invert st |}.

Definition with_first_if (s : rffc507x.RFFC507x) (st : Radio Band)
  : Radio Band :=
  {| gpio_not_ant_pwr := gpio_not_ant_pwr st;
     clock_manager := clock_manager st;
     rf_path := rf_path st; first_if := s;
     second_if := second_if st; baseband_codec := baseband_codec st;
     baseband_cpld := baseband_cpld st; direction := direction st;
     baseband_invert := baseband_invert st; mixer_invert := mixer_invert st |}.

Definition with_second_if (s : max2839.MAX2839) (st : Radio Band)
  : Radio Band :=
  {| gpio_not_ant_pwr := gpio_not_ant_pwr st;
     clock_manager := clock_manager st;
     rf_path := rf_path st; first_if := first_if st;
     second_if := s; baseband_codec := baseband_codec st;
     baseband_cpld := baseband_cpld st; direction := direction st;
     baseband_invert := baseband_invert st; mixer_invert := mixer_invert st |}.

Definition with_baseband_codec (s : max5864.MAX5864) (st : Radio Band)
  : Radio Band :=
  {| gpio_not_ant_pwr := gpio_not_ant_pwr st;
     clock_manager := clock_manager st;
     rf_path := rf_path st; first_if := first_if st;
     second_if := second_if st; baseband_codec := s;
     baseband_cpld := baseband_cpld st; direction := direction st;
     baseband_invert := baseband_invert st; mixer_invert := mixer_invert st |}.

Definition with_baseband_cpld (s : baseband.CPLD) (st : Radio Band)
  : Radio Band :=
  {| gpio_not_ant_pwr := gpio_not_ant_pwr st;
     clock_manager := clock_manager st;
     rf_path := rf_path st; first_if := first_if st;
     second_if := second_if st; baseband_codec := baseband_codec st;
     baseband_cpld := s; direction := direction st;
     baseband_invert := baseband_invert st; mixer_invert := mixer_invert st |}.

Definition with_direction (d : rf.Direction) (st : Radio Band) : Radio Band :=
  {| gpio_not_ant_pwr := gpio_not_ant_pwr st;
     clock_manager := clock_manager st;
     rf_path := rf_path st; first_if := first_if st;
     second_if := second_if st; baseband_codec := baseband_codec st;
     baseband_cpld := baseband_cpld st; direction := d;
     baseband_invert := baseband_invert st; mixer_invert := mixer_invert st |}.

Definition with_baseband_invert (b : bool) (st : Radio Band) : Radio Band :=
  {| gpio_not_ant_pwr := gpio_not_ant_pwr st;
     clock_manager := clock_manager st;
     rf_path := rf_path st; first_if := first_if st;
     second_if := second_if st; baseband_codec := baseband_codec st;
     baseband_cpld := baseband_cpld st; direction := direction st;
     baseband_invert := b; mixer_invert := mixer_invert st |}.

Definition with_mixer_invert (b : bool) (st : Radio Band) : Radio Band :=
  {| gpio_not_ant_pwr := gpio_not_ant_pwr st;
     clock_manager := clock_manager st;
     rf_path := rf_path st; first_if := first_if st;
     second_if := second_if st; baseband_codec := baseband_codec st;
     baseband_cpld := baseband_cpld st; direction := direction st;
     baseband_invert := baseband_invert st; mixer_invert := b |}.

End Updates.

(** ** The calls radio.cpp makes on its collaborators *)

Module leaf.
Section Leaf.

Context {Band : Type} {hw : Collaborators Band}.

Definition gpio_not_ant_pwr_write (level : Z) : M Band unit :=
  call (ev_gpio_not_ant_pwr_write level) (with_gpio_not_ant_pwr level).

Definition clock_manager_set_sampling_frequency (rate : Z) : M Band unit :=
  call (ev_clock_manager_set_sampling_frequency rate) (with_clock_manager rate).

Definition rf_path_set_band (b : Band) : M Band unit :=
  call (ev_rf_path_set_band b)
       (fun st => with_rf_path (rf.path.set_band b (rf_path st)) st).

Definition rf_path_set_direction (d : rf.Direction) : M Band unit :=
  call (ev_rf_path_set_direction d)
       (fun st => with_rf_path (rf.path.set_direction d (rf_path st)) st).

Definition rf_path_set_rf_amp (rf_amp : bool) : M Band unit :=
  call (ev_rf_path_set_rf_amp rf_amp)
       (fun st => with_rf_path (rf.path.set_rf_amp rf_amp (rf_path st)) st).

Definition first_if_disable : M Band unit :=
  call ev_first_if_disable
       (fun st => with_first_if (rffc507x.disable (first_if st)) st).

Definition first_if_enable : M Band unit :=
  call ev_first_if_enable
       (fun st => with_first_if (rffc507x.enable (first_if st)) st).

Definition first_if_set_frequency (f : rf.Frequency) : M Band unit :=
  call (ev_first_if_set_frequency f)
       (fun st => with_first_if (rffc507x.set_frequency f (first_if st)) st).

Definition second_if_set_frequency (f : rf.Frequency) : M Band bool :=
  fun st =>
    let '(ok, s) := max2839.set_frequency f (second_if st) in
    (ok, with_second_if s st, [ev_second_if_set_frequency f]).

Definition second_if_set_mode (m : max283x.Mode) : M Band unit :=
  call (ev_second_if_set_mode m)
       (fun st => with_second_if (max2839.set_mode m (second_if st)) st).

Definition second_if_set_lna_gain (db : Z) : M Band unit :=
  call (ev_second_if_set_lna_gain db)
       (fun st => with_second_if (max2839.set_lna_gain db (second_if st)) st).

Definition second_if_set_vga_gain (db : Z) : M Band unit :=
  call (ev_second_if_set_vga_gain db)
       (fun st => with_second_if (max2839.set_vga_gain db (second_if st)) st).

Definition second_if_set_tx_vga_gain (db : Z) : M Band unit :=
  call (ev_second_if_set_tx_vga_gain db)
       (fun st =>
          with_second_if (max2839.set_tx_vga_gain db (second_if st)) st).

Definition second_if_set_lpf_rf_bandwidth (bandwidth_minimum : Z)
  : M Band unit :=
  call (ev_second_if_set_lpf_rf_bandwidth bandwidth_minimum)
       (fun st =>
          with_second_if
            (max2839.set_lpf_rf_bandwidth bandwidth_minimum (second_if st))
            st).

Definition baseband_codec_set_mode (m : max5864.Mode) : M Band unit :=
  call (ev_baseband_codec_set_mode m)
       (fun st =>
          with_baseband_codec (max5864.set_mode m (baseband_codec st)) st).

Definition baseband_cpld_set_invert (b : bool) : M Band unit :=
  call (ev_baseband_cpld_set_invert b)
       (fun st =>
          with_baseband_cpld (baseband.set_invert b (baseband_cpld st)) st).

End Leaf.
End leaf.

(** ** radio.cpp *)

Section RadioCpp.

Context {Band : Type} {hw : Collaborators Band}.

Definition set_direction (new_direction : rf.Direction) : M Band unit :=
  assign (with_direction new_direction) ;;
  d <- read direction ;;
  assign (with_baseband_invert (rf.Direction_eqb d rf.Receive)) ;;
  mi <- read mixer_invert ;;
  bi <- read baseband_invert ;;
  leaf.baseband_cpld_set_invert (xorb mi bi) ;;
  d <- read direction ;;
  leaf.second_if_set_mode
    (if rf.Direction_eqb d rf.Transmit
     then max283x.Transmit else max283x.Receive) ;;
  d <- read direction ;;
  leaf.rf_path_set_direction d ;;
  d <- read direction ;;
  leaf.baseband_codec_set_mode
    (if rf.Direction_eqb d rf.Transmit
     then max5864.Transmit else max5864.Receive).

Definition set_tuning_frequency (frequency : rf.Frequency) : M Band bool :=
  let tuning_config := tuning_config_create frequency in
  if tuning.is_valid tuning_config then
    leaf.first_if_disable ;;
    (if negb (tuning.first_lo_frequency tuning_config =? 0) then
       leaf.first_if_set_frequency (tuning.first_lo_frequency tuning_config) ;;
       leaf.first_if_enable
     else ret tt) ;;
    result_second_if <-
      leaf.second_if_set_frequency (tuning.second_lo_frequency tuning_config) ;;
    leaf.rf_path_set_band (tuning.rf_path_band tuning_config) ;;
    assign (with_mixer_invert (tuning.mixer_invert tuning_config)) ;;
    mi <- read mixer_invert ;;
    bi <- read baseband_invert ;;
    leaf.baseband_cpld_set_invert (xorb mi bi) ;;
    ret result_second_if
  else
    ret false.

Definition set_rf_amp (rf_amp : bool) : M Band unit :=
  leaf.rf_path_set_rf_amp rf_amp.

Definition set_lna_gain (db : Z) : M Band unit :=
  leaf.second_if_set_lna_gain db.

Definition set_vga_gain (db : Z) : M Band unit :=
  leaf.second_if_set_vga_gain db.

Definition set_tx_gain (db : Z) : M Band unit :=
  leaf.second_if_set_tx_vga_gain db.

Definition set_baseband_filter_bandwidth (bandwidth_minimum : Z)
  : M Band unit :=
  leaf.second_if_set_lpf_rf_bandwidth bandwidth_minimum.

Definition set_baseband_rate (rate : Z) : M Band unit :=
  leaf.clock_manager_set_sampling_frequency rate.

(** Pull MOSFET gate low to turn on antenna bias. *)
Definition set_antenna_bias (on : bool) : M Band unit :=
  leaf.gpio_not_ant_pwr_write (if on then 0 else 1).

Definition disable : M Band unit :=
  set_antenna_bias false ;;
  leaf.baseband_codec_set_mode max5864.Shutdown ;;
  leaf.second_if_set_mode max283x.Standby ;;
  leaf.first_if_disable ;;
  set_rf_amp false.

Definition configure (configuration : Configuration.t) : M Band unit :=
  set_tuning_frequency (Configuration.tuning_frequency configuration) ;;
  set_rf_amp (Configuration.rf_amp configuration) ;;
  set_lna_gain (Configuration.lna_gain configuration) ;;
  set_vga_gain (Configuration.vga_gain configuration) ;;
  set_baseband_rate (Configuration.baseband_rate configuration) ;;
  set_baseband_filter_bandwidth
    (Configuration.baseband_filter_bandwidth configuration) ;;
  set_direction (Configuration.direction configuration).

Definition enable (configuration : Configuration.t) : M Band unit :=
  configure configuration.

(** The antenna bias is on when the pin is low. *)
Definition antenna_bias_on (st : Radio Band) : bool :=
  gpio_not_ant_pwr st =? 0.

End RadioCpp.

(** ** Reading a trace *)

Section Traces.

Context {Band : Type}.

(** The inversion bits written to the programmable logic, in order. *)
Fixpoint cpld_writes (t : list (Event Band)) : list bool :=
  match t with
  | [] => []
  | ev_baseband_cpld_set_invert b :: t' => b :: cpld_writes t'
  | _ :: t' => cpld_writes t'
  end.

(** The events that only [set_tx_gain] and [set_antenna_bias] produce. *)
Definition is_tx_gain_or_antenna_bias (e : Event Band) : bool :=
  match e with
  | ev_second_if_set_tx_vga_gain _ | ev_gpio_not_ant_pwr_write _ => true
  | _ => false
  end.

End Traces.

(** ** The public interface as requests *)

(** One constructor per function of the control interface that radio.cpp
    defines; [init] is left out, its body being calls on initialisers that
    live in the collaborators. *)
Inductive Request : Type :=
| do_set_direction (new_direction : rf.Direction)
| do_set_tuning_frequency (frequency : rf.Frequency)
| do_set_rf_amp (rf_amp : bool)
| do_set_lna_gain (db : Z)
| do_set_vga_gain (db : Z)
| do_set_tx_gain (db : Z)
| do_set_baseband_filter_bandwidth (bandwidth_minimum : Z)
| do_set_baseband_rate (rate : Z)
| do_set_antenna_bias (on : bool)
| do_disable
| do_enable (configuration : Configuration.t)
| do_configure (configuration : Configuration.t).



(** The requests whose function runs [set_direction]. *)
Definition switches_direction (r : Request) : bool :=
  match r with
  | do_set_direction _ | do_enable _ | do_configure _ => true
  | _ => false
  end.



Section Interface.

Context {Band : Type} {hw : Collaborators Band}.

(** A caller that drops the result of a tuning request, as [configure]
    does. *)
Definition perform (r : Request) : M Band unit :=
  match r with
  | do_set_direction new_direction => set_direction new_direction
  | do_set_tuning_frequency frequency =>
      set_tuning_frequency frequency ;; ret tt
  | do_set_rf_amp rf_amp => set_rf_amp rf_amp
  | do_set_lna_gain db => set_lna_gain db
  | do_set_vga_gain db => set_vga_gain db
  | do_set_tx_gain db => set_tx_gain db
  | do_set_baseband_filter_bandwidth bandwidth_minimum =>
      set_baseband_filter_bandwidth bandwidth_minimum
  | do_set_baseband_rate rate => set_baseband_rate rate
  | do_set_antenna_bias on => set_antenna_bias on
  | do_disable => disable
  | do_enable configuration => enable configuration
  | do_configure configuration => configure configuration
  end.

Fixpoint perform_all (rs : list Request) : M Band unit :=
  match rs with
  | [] => ret tt
  | r :: rs' => perform r ;; perform_all rs'
  end.

(** The programmable logic holds [mixer_invert XOR baseband_invert]. *)
Definition polarity_consistent (st : Radio Band) : Prop :=
  baseband.invert (baseband_cpld st)
  = xorb (mixer_invert st) (baseband_invert st).

(** The baseband inversion and the RF path agree with [direction]. *)
Definition direction_consistent (st : Radio Band) : Prop :=
  baseband_invert st
  = match direction st with rf.Receive => true | rf.Transmit => false end
  /\ rf.path.direction (rf_path st) = direction st.

(** The initialisers of the three file-level variables:
    [direction { rf::Direction::Receive }], [baseband_invert = false],
    [mixer_invert = false]. *)
Definition statics_at_start (st : Radio Band) : Prop :=
  direction st = rf.Receive
  /\ baseband_invert st = false
  /\ mixer_invert st = false.

End Interface.

(** ** namespace debug *)

Module debug.
Module second_if.

(** [temp_sense] masks the reading of the second IF stage and returns it
    as [uint8_t].  The stage's own [temp_sense] lives outside radio.cpp;
    its reading is the argument, any integer. *)
Definition temp_sense (reading : Z) : Z :=
  (Z.land reading 0x1f) mod 2 ^ 8.

End second_if.
End debug.

(** ** A bench set-up on which the statements below are exercised *)

Module bench.

Inductive Band : Type := Low | Mid | High.

Definition clamp (lo hi v : Z) : Z := Z.max lo (Z.min hi v).

Definition invalid : tuning.Config Band :=
  {| tuning.is_valid := false;
     tuning.first_lo_frequency := 0;
     tuning.second_lo_frequency := 0;
     tuning.rf_path_band := Low;
     tuning.mixer_invert := false |}.

(** Below 2150 MHz the first mixer converts up (inverting); up to
    2750 MHz the second IF tunes directly; above, the first mixer
    converts down; outside 10 MHz .. 7250 MHz there is no plan. *)
Definition plan (f : rf.Frequency) : tuning.Config Band :=
  if f <? 10000000 then invalid
  else if f <? 2150000000 then
    {| tuning.is_valid := true;
       tuning.first_lo_frequency := f + 2650000000;
       tuning.second_lo_frequency := 2650000000;
       tuning.rf_path_band := Low;
       tuning.mixer_invert := true |}
  else if f <? 2750000000 then
    {| tuning.is_valid := true;
       tuning.first_lo_frequency := 0;
       tuning.second_lo_frequency := f;
       tuning.rf_path_band := Mid;
       tuning.mixer_invert := false |}
  else if f <=? 7250000000 then
    {| tuning.is_valid := true;
       tuning.first_lo_frequency := f - 2500000000;
       tuning.second_lo_frequency := 2500000000;
       tuning.rf_path_band := High;
       tuning.mixer_invert := false |}
  else invalid.

#[global] Instance stages : Collaborators Band := {|
  tuning_config_create := plan;
  second_lo_in_range := fun f => (2300000000 <=? f) && (f <=? 2700000000);
  lna_gain_setting := fun db => Some (clamp 0 40 db);
  vga_gain_setting := fun db => Some (clamp 0 62 db);
  tx_vga_gain_setting := fun db => Some (clamp 0 47 db);
  lpf_rf_bandwidth_setting :=
    fun bw => if bw <=? 28000000 then Some (Z.max 1750000 bw) else None
|}.

(** Transmitting at 100 MHz with the antenna bias on. *)
Definition on_air : Radio Band :=
  {| gpio_not_ant_pwr := 0;
     clock_manager := 8000000;
     rf_path :=
       {| rf.path.band := Low; rf.path.direction := rf.Transmit;
          rf.path.rf_amp := true |};
     first_if :=
       {| rffc507x.enabled := true; rffc507x.lo_frequency := 2750000000 |};
     second_if :=
       {| max2839.mode := max283x.Transmit;
          max2839.lo_frequency := 2650000000;
          max2839.lna_gain := 16; max2839.vga_gain := 20;
          max2839.tx_vga_gain := 30;
          max2839.lpf_rf_bandwidth := 1750000 |};
     baseband_codec := {| max5864.mode := max5864.Transmit |};
     baseband_cpld := {| baseband.invert := true |};
     direction := rf.Transmit;
     baseband_invert := false;
     mixer_invert := true |}.

Definition fm_broadcast : Configuration.t :=
  {| Configuration.tuning_frequency := 98500000;
     Configuration.rf_amp := false;
     Configuration.lna_gain := 32;
     Configuration.vga_gain := 70;
     Configuration.baseband_rate := 3072000;
     Configuration.baseband_filter_bandwidth := 1750000;
     Configuration.direction := rf.Receive |}.

(** Power-on: the file-level variables at their initial values, the
    stages idle. *)
Definition power_on : Radio Band :=
  {| gpio_not_ant_pwr := 1;
     clock_manager := 0;
     rf_path :=
       {| rf.path.band := Mid; rf.path.direction := rf.Receive;
          rf.path.rf_amp := false |};
     first_if := {| rffc507x.enabled := false; rffc507x.lo_frequency := 0 |};
     second_if :=
       {| max2839.mode := max283x.Standby;
          max2839.lo_frequency := 0;
          max2839.lna_gain := 0; max2839.vga_gain := 0;
          max2839.tx_vga_gain := 0;
          max2839.lpf_rf_bandwidth := 1750000 |};
     baseband_codec := {| max5864.mode := max5864.Shutdown |};
     baseband_cpld := {| baseband.invert := false |};
     direction := rf.Receive;
     baseband_invert := false;
     mixer_invert := false |}.


(** A session that retunes, changes gains and reconfigures, without
    touching the antenna bias or the TX gain. *)
Definition session : list Request :=
  [ do_set_tuning_frequency 433920000;
    do_set_lna_gain 24;
    do_set_rf_amp true;
    do_configure fm_broadcast;
    do_set_tuning_frequency 0;
    do_set_baseband_rate 2000000;
    do_set_direction rf.Transmit ].

End bench.

(** ** Laws of the monad *)

Section Laws.

Context {Band : Type}.

Lemma result_bind {A B} (m : M Band A) (k : A -> M Band B) (st : Radio Band) :
  result (bind m k) st = result (k (result m st)) (state_after m st).
Proof.
  unfold result, state_after, bind.
  destruct (m st) as [[a s1] t1]; cbn.
  destruct (k a s1) as [[b s2] t2]; reflexivity.
Qed.

Lemma state_after_bind {A B} (m : M Band A) (k : A -> M Band B)
  (st : Radio Band) :
  state_after (bind m k) st = state_after (k (result m st)) (state_after m st).
Proof.
  unfold result, state_after, bind.
  destruct (m st) as [[a s1] t1]; cbn.
  destruct (k a s1) as [[b s2] t2]; reflexivity.
Qed.

Lemma trace_bind {A B} (m : M Band A) (k : A -> M Band B) (st : Radio Band) :
  trace (bind m k) st
  = trace m st ++ trace (k (result m st)) (state_after m st).
Proof.
  unfold result, state_after, trace, bind.
  destruct (m st) as [[a s1] t1]; cbn.
  destruct (k a s1) as [[b s2] t2]; reflexivity.
Qed.

Lemma run_eta {A} (m : M Band A) (st : Radio Band) :
  m st = (result m st, state_after m st, trace m st).
Proof.
  unfold result, state_after, trace.
  destruct (m st) as [[a s1] t1]; reflexivity.
Qed.

End Laws.

(** ** What each controller function does, unfolded *)

Section Runs.

Context {Band : Type} {hw : Collaborators Band}.

Lemma keep_or_twice (old : Z) (request : option Z) :
  max2839.keep_or (max2839.keep_or old request) request
  = max2839.keep_or old request.
Proof. destruct request; reflexivity. Qed.

Lemma set_direction_run (d : rf.Direction) (st : Radio Band) :
  set_direction d st
  = (tt,
     {| gpio_not_ant_pwr := gpio_not_ant_pwr st;
        clock_manager := clock_manager st;
        rf_path := rf.path.set_direction d (rf_path st);
        first_if := first_if st;
        second_if :=
          max2839.set_mode
            (match d with
             | rf.Receive => max283x.Receive
             | rf.Transmit => max283x.Transmit
             end) (second_if st);
        baseband_codec :=
          {| max5864.mode :=
               match d with
               | rf.Receive => max5864.Receive
               | rf.Transmit => max5864.Transmit
               end |};
        baseband_cpld :=
          {| baseband.invert :=
               xorb (mixer_invert st)
                    (match d with rf.Receive => true | rf.Transmit => false end)
          |};
        direction := d;
        baseband_invert :=
          match d with rf.Receive => true | rf.Transmit => false end;
        mixer_invert := mixer_invert st |},
     [ ev_baseband_cpld_set_invert
         (xorb (mixer_invert st)
               (match d with rf.Receive => true | rf.Transmit => false end));
       ev_second_if_set_mode
         (match d with
          | rf.Receive => max283x.Receive
          | rf.Transmit => max283x.Transmit
          end);
       ev_rf_path_set_direction d;
       ev_baseband_codec_set_mode
         (match d with
          | rf.Receive => max5864.Receive
          | rf.Transmit => max5864.Transmit
          end) ]).
Proof. destruct d; reflexivity. Qed.

Lemma set_tuning_frequency_invalid (f : rf.Frequency) (st : Radio Band) :
  tuning.is_valid (tuning_config_create f) = false ->
  set_tuning_frequency f st = (false, st, []).
Proof.
  intros Hinvalid. unfold set_tuning_frequency.
  rewrite Hinvalid. reflexivity.
Qed.

Lemma set_tuning_frequency_valid (f : rf.Frequency) (st : Radio Band) :
  let tuning_config := tuning_config_create f in
  let first_lo := tuning.first_lo_frequency tuning_config in
  let second_lo := tuning.second_lo_frequency tuning_config in
  tuning.is_valid tuning_config = true ->
  set_tuning_frequency f st
  = (fst (max2839.set_frequency second_lo (second_if st)),
     {| gpio_not_ant_pwr := gpio_not_ant_pwr st;
        clock_manager := clock_manager st;
        rf_path :=
          rf.path.set_band (tuning.rf_path_band tuning_config) (rf_path st);
        first_if :=
          if first_lo =? 0 then rffc507x.disable (first_if st)
          else rffc507x.enable
                 (rffc507x.set_frequency first_lo
                    (rffc507x.disable (first_if st)));
        second_if := snd (max2839.set_frequency second_lo (second_if st));
        baseband_codec := baseband_codec st;
        baseband_cpld :=
          {| baseband.invert :=
               xorb (tuning.mixer_invert tuning_config) (baseband_invert st) |};
        direction := direction st;
        baseband_invert := baseband_invert st;
        mixer_invert := tuning.mixer_invert tuning_config |},
     ev_first_if_disable
       :: (if first_lo =? 0 then []
           else [ev_first_if_set_frequency first_lo; ev_first_if_enable])
       ++ [ ev_second_if_set_frequency second_lo;
            ev_rf_path_set_band (tuning.rf_path_band tuning_config);
            ev_baseband_cpld_set_invert
              (xorb (tuning.mixer_invert tuning_config)
                    (baseband_invert st)) ]).
Proof.
  intros tuning_config first_lo second_lo Hvalid.
  unfold set_tuning_frequency. fold tuning_config. rewrite Hvalid.
  fold first_lo second_lo.
  unfold bind, leaf.second_if_set_frequency.
  destruct (first_lo =? 0); cbn;
    destruct (max2839.set_frequency second_lo (second_if st)) as [ok s];
    reflexivity.
Qed.

Lemma disable_run (st : Radio Band) :
  disable st
  = (tt,
     {| gpio_not_ant_pwr := 1;
        clock_manager := clock_manager st;
        rf_path := rf.path.set_rf_amp false (rf_path st);
        first_if := rffc507x.disable (first_if st);
        second_if := max2839.set_mode max283x.Standby (second_if st);
        baseband_codec := {| max5864.mode := max5864.Shutdown |};
        baseband_cpld := baseband_cpld st;
        direction := direction st;
        baseband_invert := baseband_invert st;
        mixer_invert := mixer_invert st |},
     [ ev_gpio_not_ant_pwr_write 1;
       ev_baseband_codec_set_mode max5864.Shutdown;
       ev_second_if_set_mode max283x.Standby;
       ev_first_if_disable;
       ev_rf_path_set_rf_amp false ]).
Proof. reflexivity. Qed.

Lemma configure_run (cfg : Configuration.t) (st : Radio Band) :
  let tuned :=
    state_after
      (set_tuning_frequency (Configuration.tuning_frequency cfg)) st in
  let d := Configuration.direction cfg in
  let receive := match d with rf.Receive => true | rf.Transmit => false end in
  let mode_2839 :=
    match d with
    | rf.Receive => max283x.Receive
    | rf.Transmit => max283x.Transmit
    end in
  let mode_5864 :=
    match d with
    | rf.Receive => max5864.Receive
    | rf.Transmit => max5864.Transmit
    end in
  configure cfg st
  = (tt,
     {| gpio_not_ant_pwr := gpio_not_ant_pwr tuned;
        clock_manager := Configuration.baseband_rate cfg;
        rf_path :=
          {| rf.path.band := rf.path.band (rf_path tuned);
             rf.path.direction := d;
             rf.path.rf_amp := Configuration.rf_amp cfg |};
        first_if := first_if tuned;
        second_if :=
          {| max2839.mode := mode_2839;
             max2839.lo_frequency := max2839.lo_frequency (second_if tuned);
             max2839.lna_gain :=
               max2839.keep_or (max2839.lna_gain (second_if tuned))
                 (lna_gain_setting (Configuration.lna_gain cfg));
             max2839.vga_gain :=
               max2839.keep_or (max2839.vga_gain (second_if tuned))
                 (vga_gain_setting (Configuration.vga_gain cfg));
             max2839.tx_vga_gain := max2839.tx_vga_gain (second_if tuned);
             max2839.lpf_rf_bandwidth :=
               max2839.keep_or (max2839.lpf_rf_bandwidth (second_if tuned))
                 (lpf_rf_bandwidth_setting
                    (Configuration.baseband_filter_bandwidth cfg)) |};
        baseband_codec := {| max5864.mode := mode_5864 |};
        baseband_cpld :=
          {| baseband.invert := xorb (mixer_invert tuned) receive |};
        direction := d;
        baseband_invert := receive;
        mixer_invert := mixer_invert tuned |},
     trace (set_tuning_frequency (Configuration.tuning_frequency cfg)) st
     ++ [ ev_rf_path_set_rf_amp (Configuration.rf_amp cfg);
          ev_second_if_set_lna_gain (Configuration.lna_gain cfg);
          ev_second_if_set_vga_gain (Configuration.vga_gain cfg);
          ev_clock_manager_set_sampling_frequency
            (Configuration.baseband_rate cfg);
          ev_second_if_set_lpf_rf_bandwidth
            (Configuration.baseband_filter_bandwidth cfg);
          ev_baseband_cpld_set_invert (xorb (mixer_invert tuned) receive);
          ev_second_if_set_mode mode_2839;
          ev_rf_path_set_direction d;
          ev_baseband_codec_set_mode mode_5864 ]).
Proof.
  cbv zeta. unfold configure.
  unfold bind at 1.
  rewrite (run_eta (set_tuning_frequency _) st).
  destruct (Configuration.direction cfg); reflexivity.
Qed.

(** A tuning request touches the first mixer, the second-LO frequency,
    the band, [mixer_invert] and the inversion bit, and nothing else. *)
Lemma set_tuning_frequency_frame (f : rf.Frequency) (st : Radio Band) :
  let tuned := state_after (set_tuning_frequency f) st in
  gpio_not_ant_pwr tuned = gpio_not_ant_pwr st
  /\ clock_manager tuned = clock_manager st
  /\ max2839.mode (second_if tuned) = max2839.mode (second_if st)
  /\ max2839.lna_gain (second_if tuned) = max2839.lna_gain (second_if st)
  /\ max2839.vga_gain (second_if tuned) = max2839.vga_gain (second_if st)
  /\ max2839.tx_vga_gain (second_if tuned)
     = max2839.tx_vga_gain (second_if st)
  /\ max2839.lpf_rf_bandwidth (second_if tuned)
     = max2839.lpf_rf_bandwidth (second_if st)
  /\ direction tuned = direction st
  /\ baseband_invert tuned = baseband_invert st.
Proof.
  cbv zeta. unfold state_after.
  destruct (tuning.is_valid (tuning_config_create f)) eqn:Hvalid.
  - rewrite set_tuning_frequency_valid by exact Hvalid. cbn.
    unfold max2839.set_frequency.
    destruct (second_lo_in_range _); cbn; repeat split; reflexivity.
  - rewrite set_tuning_frequency_invalid by exact Hvalid.
    repeat split; reflexivity.
Qed.

(** No tuning request writes the GPIO pin or the TX VGA gain. *)
Lemma set_tuning_frequency_trace_quiet (f : rf.Frequency) (st : Radio Band) :
  existsb is_tx_gain_or_antenna_bias (trace (set_tuning_frequency f) st)
  = false.
Proof.
  unfold trace.
  destruct (tuning.is_valid (tuning_config_create f)) eqn:Hvalid.
  - rewrite set_tuning_frequency_valid by exact Hvalid. cbn.
    destruct (_ =? 0); reflexivity.
  - rewrite set_tuning_frequency_invalid by exact Hvalid. reflexivity.
Qed.

End Runs.

(** ** Properties of the controller *)

Section Properties.

Context {Band : Type} {hw : Collaborators Band}.

(** C1.  Both operations that change an inversion source rewrite the
    combined bit themselves.  From any state, [set_direction d] stores
    [baseband_invert], and [set_tuning_frequency f] with a valid plan
    stores [mixer_invert]; in each case the operation writes the
    programmable logic exactly once, the bit written is
    [mixer_invert XOR baseband_invert] of the values the operation leaves
    behind, and that is the bit the logic holds when the operation
    returns. *)
Theorem polarity_rewritten_on_mutation
  (d : rf.Direction) (f : rf.Frequency) (st : Radio Band)
  (Hvalid : tuning.is_valid (tuning_config_create f) = true) :
  let turned := state_after (set_direction d) st in
  let tuned := state_after (set_tuning_frequency f) st in
  (baseband_invert turned
   = match d with rf.Receive => true | rf.Transmit => false end
   /\ mixer_invert turned = mixer_invert st
   /\ cpld_writes (trace (set_direction d) st)
      = [xorb (mixer_invert turned) (baseband_invert turned)]
   /\ baseband.invert (baseband_cpld turned)
      = xorb (mixer_invert turned) (baseband_invert turned))
  /\
  (mixer_invert tuned = tuning.mixer_invert (tuning_config_create f)
   /\ baseband_invert tuned = baseband_invert st
   /\ cpld_writes (trace (set_tuning_frequency f) st)
      = [xorb (mixer_invert tuned) (baseband_invert tuned)]
   /\ baseband.invert (baseband_cpld tuned)
      = xorb (mixer_invert tuned) (baseband_invert tuned)).
Proof.
  cbv zeta. unfold state_after, trace. split.
  - rewrite set_direction_run. cbn. repeat split; reflexivity.
  - rewrite set_tuning_frequency_valid by exact Hvalid. cbn.
    repeat split; try reflexivity.
    destruct (_ =? 0); reflexivity.
Qed.

(** C2.  When the planner reports no valid plan for [f],
    [set_tuning_frequency f] returns false, calls no collaborator and
    leaves the whole controller state (first mixer, second IF, RF path,
    both invert flags, the inversion bit, direction, gains) as it was. *)
Theorem set_tuning_frequency_invalid_is_no_op
  (f : rf.Frequency) (st : Radio Band)
  (Hinvalid : tuning.is_valid (tuning_config_create f) = false) :
  result (set_tuning_frequency f) st = false
  /\ state_after (set_tuning_frequency f) st = st
  /\ trace (set_tuning_frequency f) st = [].
Proof.
  unfold result, state_after, trace.
  rewrite set_tuning_frequency_invalid by exact Hinvalid.
  repeat split; reflexivity.
Qed.

(** C3.  With a valid plan, after [set_tuning_frequency f] the first mixer
    is enabled exactly when the plan's first-LO frequency is non-zero, and
    then it is tuned to that frequency.  The calls come in this order:
    the first mixer is disabled first, whatever the plan; only for a
    non-zero first-LO frequency its frequency is set and then it is
    enabled; the remaining calls do not touch the first mixer. *)
Theorem first_mixer_follows_plan
  (f : rf.Frequency) (st : Radio Band)
  (Hvalid : tuning.is_valid (tuning_config_create f) = true) :
  let tuning_config := tuning_config_create f in
  let first_lo := tuning.first_lo_frequency tuning_config in
  let tuned := state_after (set_tuning_frequency f) st in
  (rffc507x.enabled (first_if tuned) = true <-> first_lo <> 0)
  /\ (first_lo <> 0 -> rffc507x.lo_frequency (first_if tuned) = first_lo)
  /\ trace (set_tuning_frequency f) st
     = ev_first_if_disable
         :: (if first_lo =? 0 then []
             else [ev_first_if_set_frequency first_lo; ev_first_if_enable])
         ++ [ ev_second_if_set_frequency
                (tuning.second_lo_frequency tuning_config);
              ev_rf_path_set_band (tuning.rf_path_band tuning_config);
              ev_baseband_cpld_set_invert
                (xorb (tuning.mixer_invert tuning_config)
                      (baseband_invert st)) ].
Proof.
  cbv zeta. unfold state_after, trace.
  rewrite set_tuning_frequency_valid by exact Hvalid. cbn.
  destruct (Z.eqb_spec (tuning.first_lo_frequency (tuning_config_create f)) 0)
    as [Hzero | Hnonzero]; cbn.
  - repeat split; try congruence; try discriminate.
  - repeat split; try congruence; try reflexivity.
Qed.

(** C4.  With a valid plan, [set_tuning_frequency f] returns what the
    second IF stage answered to [set_frequency] for the plan's second-LO
    frequency.  Whatever that answer, the first mixer has been disabled
    and, for a non-zero first-LO frequency, re-tuned and re-enabled; the
    RF path has the plan's band; [mixer_invert] has the plan's flag; and
    the inversion bit has been rewritten from it. *)
Theorem tuning_result_is_second_if_result
  (f : rf.Frequency) (st : Radio Band)
  (Hvalid : tuning.is_valid (tuning_config_create f) = true) :
  let tuning_config := tuning_config_create f in
  let first_lo := tuning.first_lo_frequency tuning_config in
  let second_lo := tuning.second_lo_frequency tuning_config in
  let tuned := state_after (set_tuning_frequency f) st in
  result (set_tuning_frequency f) st
  = fst (max2839.set_frequency second_lo (second_if st))
  /\ In (ev_second_if_set_frequency second_lo)
        (trace (set_tuning_frequency f) st)
  /\ first_if tuned
     = (if first_lo =? 0 then rffc507x.disable (first_if st)
        else rffc507x.enable
               (rffc507x.set_frequency first_lo
                  (rffc507x.disable (first_if st))))
  /\ rf.path.band (rf_path tuned) = tuning.rf_path_band tuning_config
  /\ mixer_invert tuned = tuning.mixer_invert tuning_config
  /\ baseband.invert (baseband_cpld tuned)
     = xorb (tuning.mixer_invert tuning_config) (baseband_invert st)
  /\ In (ev_baseband_cpld_set_invert
           (xorb (tuning.mixer_invert tuning_config) (baseband_invert st)))
        (trace (set_tuning_frequency f) st).
Proof.
  cbv zeta. unfold result, state_after, trace.
  rewrite set_tuning_frequency_valid by exact Hvalid. cbn.
  repeat split; try reflexivity.
  - right. apply in_or_app. right. left. reflexivity.
  - right. apply in_or_app. right. right. right. left. reflexivity.
Qed.

(** C5.  After [set_direction d], from any state: [baseband_invert] is
    true exactly for Receive; the bit written to the programmable logic is
    the stored [mixer_invert] XOR the new [baseband_invert]; the second IF
    stage is in Transmit mode for Transmit and in Receive mode otherwise;
    the RF path has direction [d]; the baseband codec is in Transmit mode
    for Transmit and in Receive mode otherwise. *)
Theorem set_direction_effect (d : rf.Direction) (st : Radio Band) :
  let turned := state_after (set_direction d) st in
  direction turned = d
  /\ baseband_invert turned
     = match d with rf.Receive => true | rf.Transmit => false end
  /\ mixer_invert turned = mixer_invert st
  /\ cpld_writes (trace (set_direction d) st)
     = [xorb (mixer_invert st) (baseband_invert turned)]
  /\ baseband.invert (baseband_cpld turned)
     = xorb (mixer_invert st) (baseband_invert turned)
  /\ max2839.mode (second_if turned)
     = match d with
       | rf.Transmit => max283x.Transmit
       | rf.Receive => max283x.Receive
       end
  /\ rf.path.direction (rf_path turned) = d
  /\ max5864.mode (baseband_codec turned)
     = match d with
       | rf.Transmit => max5864.Transmit
       | rf.Receive => max5864.Receive
       end.
Proof.
  cbv zeta. unfold state_after, trace.
  rewrite set_direction_run. cbn.
  destruct d; repeat split; reflexivity.
Qed.

(** C6.  Calling [configure cfg] twice in succession leaves the
    controller state (first mixer, second IF frequency, mode, gains and
    bandwidth, RF path, sampling rate, codec mode, both invert flags, the
    inversion bit, direction) equal to the state after calling it once. *)
Theorem configure_twice (cfg : Configuration.t) (st : Radio Band) :
  state_after (configure cfg ;; configure cfg) st
  = state_after (configure cfg) st.
Proof.
  rewrite state_after_bind.
  unfold state_after.
  rewrite (configure_run cfg st). cbn [fst snd].
  rewrite configure_run. cbn [fst snd].
  set (f := Configuration.tuning_frequency cfg).
  unfold state_after.
  destruct (tuning.is_valid (tuning_config_create f)) eqn:Hvalid.
  - rewrite !set_tuning_frequency_valid by exact Hvalid.
    unfold max2839.set_frequency.
    destruct (_ =? 0); destruct (second_lo_in_range _); cbn;
      rewrite !keep_or_twice; reflexivity.
  - rewrite !set_tuning_frequency_invalid by exact Hvalid. cbn.
    rewrite !keep_or_twice. reflexivity.
Qed.

(** C7.  From any state, [disable] makes five calls in this order:
    antenna bias off (the pin driven high), baseband codec to Shutdown,
    second IF stage to Standby, first mixer disabled, RF amp off; and the
    state it leaves shows all five. *)
Theorem disable_effect (st : Radio Band) :
  let off := state_after disable st in
  trace disable st
  = [ ev_gpio_not_ant_pwr_write 1;
      ev_baseband_codec_set_mode max5864.Shutdown;
      ev_second_if_set_mode max283x.Standby;
      ev_first_if_disable;
      ev_rf_path_set_rf_amp false ]
  /\ trace (set_antenna_bias false) st = [ev_gpio_not_ant_pwr_write 1]
  /\ antenna_bias_on off = false
  /\ max5864.mode (baseband_codec off) = max5864.Shutdown
  /\ max2839.mode (second_if off) = max283x.Standby
  /\ rffc507x.enabled (first_if off) = false
  /\ rf.path.rf_amp (rf_path off) = false.
Proof.
  cbv zeta. unfold state_after, trace.
  rewrite disable_run. repeat split; reflexivity.
Qed.

(** C8.  [enable cfg] is [configure cfg]: same result, same final state,
    same trace.  The trace is that of the tuning request, then RF amp, LNA
    gain, VGA gain, baseband rate, filter bandwidth, and last the four
    calls of the direction switch, which runs on the state the earlier
    steps left. *)
Theorem enable_is_configure (cfg : Configuration.t) (st : Radio Band) :
  let f := Configuration.tuning_frequency cfg in
  let d := Configuration.direction cfg in
  let before_direction :=
    state_after
      (set_tuning_frequency f ;;
       set_rf_amp (Configuration.rf_amp cfg) ;;
       set_lna_gain (Configuration.lna_gain cfg) ;;
       set_vga_gain (Configuration.vga_gain cfg) ;;
       set_baseband_rate (Configuration.baseband_rate cfg) ;;
       set_baseband_filter_bandwidth
         (Configuration.baseband_filter_bandwidth cfg)) st in
  enable cfg st = configure cfg st
  /\ trace (configure cfg) st
     = trace (set_tuning_frequency f) st
       ++ [ ev_rf_path_set_rf_amp (Configuration.rf_amp cfg);
            ev_second_if_set_lna_gain (Configuration.lna_gain cfg);
            ev_second_if_set_vga_gain (Configuration.vga_gain cfg);
            ev_clock_manager_set_sampling_frequency
              (Configuration.baseband_rate cfg);
            ev_second_if_set_lpf_rf_bandwidth
              (Configuration.baseband_filter_bandwidth cfg) ]
       ++ trace (set_direction d) before_direction
  /\ state_after (configure cfg) st
     = state_after (set_direction d) before_direction.
Proof.
  cbv zeta. split; [reflexivity|].
  unfold configure.
  rewrite !trace_bind, !state_after_bind.
  split; reflexivity.
Qed.

(** C9.  [configure cfg], and so [enable cfg], never writes the TX VGA
    gain or the antenna-bias pin: the trace holds no such call and both
    values are what they were before. *)
Theorem configure_keeps_tx_gain_and_bias
  (cfg : Configuration.t) (st : Radio Band) :
  let configured := state_after (configure cfg) st in
  existsb is_tx_gain_or_antenna_bias (trace (configure cfg) st) = false
  /\ max2839.tx_vga_gain (second_if configured)
     = max2839.tx_vga_gain (second_if st)
  /\ gpio_not_ant_pwr configured = gpio_not_ant_pwr st
  /\ antenna_bias_on configured = antenna_bias_on st
  /\ existsb is_tx_gain_or_antenna_bias (trace (enable cfg) st) = false
  /\ state_after (enable cfg) st = configured.
Proof.
  cbv zeta. unfold enable, antenna_bias_on, state_after, trace.
  rewrite configure_run. cbn [fst snd].
  destruct (set_tuning_frequency_frame
              (Configuration.tuning_frequency cfg) st)
    as (Hgpio & _ & _ & _ & _ & Htx & _).
  cbn. rewrite existsb_app, set_tuning_frequency_trace_quiet.
  rewrite Hgpio, Htx. repeat split; reflexivity.
Qed.

(** C10.  [disable] leaves [direction], [mixer_invert], [baseband_invert]
    and the inversion bit of the programmable logic as they were and
    writes nothing to the programmable logic; a [set_direction d] that
    follows it computes the inversion bit from the [mixer_invert] stored
    before [disable]. *)
Theorem disable_keeps_polarity (d : rf.Direction) (st : Radio Band) :
  let off := state_after disable st in
  direction off = direction st
  /\ mixer_invert off = mixer_invert st
  /\ baseband_invert off = baseband_invert st
  /\ baseband.invert (baseband_cpld off) = baseband.invert (baseband_cpld st)
  /\ cpld_writes (trace disable st) = []
  /\ baseband.invert
       (baseband_cpld (state_after (disable ;; set_direction d) st))
     = xorb (mixer_invert st)
            (match d with rf.Receive => true | rf.Transmit => false end).
Proof.
  cbv zeta. rewrite state_after_bind.
  unfold state_after, trace.
  rewrite set_direction_run, disable_run.
  repeat split; reflexivity.
Qed.

End Properties.

(** ** The statements with a hypothesis, exercised on the bench *)

(** 98.5 MHz has a valid plan (first mixer needed, inverting); the radio
    was transmitting, so the bit written on tuning is [true XOR false]. *)
Lemma polarity_rewritten_on_mutation_witness :
  tuning.is_valid (tuning_config_create (Band := bench.Band) 98500000) = true
  /\ cpld_writes (trace (set_tuning_frequency 98500000) bench.on_air) = [true]
  /\ cpld_writes (trace (set_direction rf.Receive) bench.on_air) = [false].
Proof.
  split; [reflexivity|].
  destruct (polarity_rewritten_on_mutation (hw := bench.stages)
              rf.Receive 98500000 bench.on_air eq_refl)
    as [(Hb' & Hm' & Hturned & _) (Hm & Hb & Htuned & _)].
  split.
  - rewrite Htuned, Hm, Hb. reflexivity.
  - rewrite Hturned, Hm', Hb'. reflexivity.
Defined.

(** 0 Hz has no plan. *)
Lemma set_tuning_frequency_invalid_is_no_op_witness :
  tuning.is_valid (tuning_config_create (Band := bench.Band) 0) = false
  /\ result (set_tuning_frequency 0) bench.on_air = false
  /\ state_after (set_tuning_frequency 0) bench.on_air = bench.on_air
  /\ trace (set_tuning_frequency 0) bench.on_air = [].
Proof.
  split; [reflexivity|].
  apply (set_tuning_frequency_invalid_is_no_op 0 bench.on_air).
  reflexivity.
Defined.

(** 98.5 MHz needs the first mixer at 2748.5 MHz. *)
Lemma first_mixer_follows_plan_witness :
  tuning.is_valid (tuning_config_create (Band := bench.Band) 98500000) = true
  /\ rffc507x.lo_frequency
       (first_if (state_after (set_tuning_frequency 98500000) bench.on_air))
     = 2748500000.
Proof.
  split; [reflexivity|].
  destruct (first_mixer_follows_plan (hw := bench.stages)
              98500000 bench.on_air eq_refl)
    as (_ & Hfrequency & _).
  apply Hfrequency. discriminate.
Defined.

(** 2740 MHz has a valid direct plan, but the bench second IF stage
    stops at 2700 MHz: the request fails after the first mixer, the band
    and the inversion state have been updated. *)
Lemma tuning_result_is_second_if_result_witness :
  tuning.is_valid (tuning_config_create (Band := bench.Band) 2740000000) = true
  /\ result (set_tuning_frequency 2740000000) bench.on_air = false
  /\ first_if (state_after (set_tuning_frequency 2740000000) bench.on_air)
     = {| rffc507x.enabled := false; rffc507x.lo_frequency := 2750000000 |}
  /\ rf.path.band
       (rf_path (state_after (set_tuning_frequency 2740000000) bench.on_air))
     = bench.Mid
  /\ mixer_invert (state_after (set_tuning_frequency 2740000000) bench.on_air)
     = false.
Proof.
  split; [reflexivity|].
  destruct (tuning_result_is_second_if_result (hw := bench.stages)
              2740000000 bench.on_air eq_refl)
    as (Hresult & _ & Hfirst & Hband & Hmixer & _).
  rewrite Hresult, Hfirst, Hband, Hmixer.
  repeat split; reflexivity.
Defined.

(** The scenario of the specification: receiving, tuned to 2400 MHz, a
    plan without first LO and without mixer inversion.  The first mixer
    ends disabled, the second IF at 2400 MHz, the inversion bit
    [false XOR true]. *)
Example scenario_direct_conversion :
  let st :=
    state_after (set_direction rf.Receive ;; set_tuning_frequency 2400000000)
                bench.on_air in
  result (set_direction rf.Receive ;; set_tuning_frequency 2400000000)
         bench.on_air = true
  /\ rffc507x.enabled (first_if st) = false
  /\ max2839.lo_frequency (second_if st) = 2400000000
  /\ baseband.invert (baseband_cpld st) = true.
Proof. cbv zeta. repeat split; reflexivity. Qed.

(** A full configuration on the bench: the VGA request of 70 dB is
    clamped by the stage, the TX gain and the antenna bias stay. *)
Example scenario_configure_fm_broadcast :
  let st := state_after (configure bench.fm_broadcast) bench.on_air in
  max2839.vga_gain (second_if st) = 62
  /\ max2839.tx_vga_gain (second_if st) = 30
  /\ antenna_bias_on st = true
  /\ baseband.invert (baseband_cpld st) = false
  /\ length (trace (configure bench.fm_broadcast) bench.on_air) = 15%nat.
Proof. cbv zeta. repeat split; reflexivity. Qed.

(** ** Requests in sequence *)

Section Sequences.

Context {Band : Type} {hw : Collaborators Band}.

Lemma state_after_ret {A} (a : A) (st : Radio Band) :
  state_after (ret a) st = st.
Proof. reflexivity. Qed.

Lemma perform_tuning_state (f : rf.Frequency) (st : Radio Band) :
  state_after (perform (do_set_tuning_frequency f)) st
  = state_after (set_tuning_frequency f) st.
Proof. cbn [perform]. rewrite state_after_bind. reflexivity. Qed.


(** What a tuning request leaves in the inversion state and the path. *)
Lemma set_tuning_frequency_polarity (f : rf.Frequency) (st : Radio Band) :
  let tuned := state_after (set_tuning_frequency f) st in
  (tuned = st
   \/ baseband.invert (baseband_cpld tuned)
      = xorb (mixer_invert tuned) (baseband_invert tuned))
  /\ rf.path.direction (rf_path tuned) = rf.path.direction (rf_path st)
  /\ rf.path.rf_amp (rf_path tuned) = rf.path.rf_amp (rf_path st)
  /\ baseband_codec tuned = baseband_codec st.
Proof.
  cbv zeta. unfold state_after.
  destruct (tuning.is_valid (tuning_config_create f)) eqn:Hvalid.
  - rewrite set_tuning_frequency_valid by exact Hvalid. cbn.
    repeat split. right. reflexivity.
  - rewrite set_tuning_frequency_invalid by exact Hvalid. cbn.
    repeat split. left. reflexivity.
Qed.

Lemma perform_keeps_consistency (r : Request) (st : Radio Band) :
  polarity_consistent st /\ direction_consistent st ->
  polarity_consistent (state_after (perform r) st)
  /\ direction_consistent (state_after (perform r) st).
Proof.
  unfold polarity_consistent, direction_consistent.
  intros (Hpolarity & Hinvert & Hpath).
  destruct r as [d|f| | | | | | | | |cfg|cfg].
  - unfold state_after. cbn [perform]. rewrite set_direction_run. cbn.
    repeat split; reflexivity.
  - rewrite perform_tuning_state.
    destruct (set_tuning_frequency_frame f st)
      as (_ & _ & _ & _ & _ & _ & _ & Hd & Hb).
    destruct (set_tuning_frequency_polarity f st)
      as ([Hsame | Hwritten] & Hp & _).
    + rewrite Hsame. repeat split; assumption.
    + rewrite Hd, Hp. repeat split; try assumption.
      rewrite Hb. assumption.
  - repeat split; assumption.
  - repeat split; assumption.
  - repeat split; assumption.
  - repeat split; assumption.
  - repeat split; assumption.
  - repeat split; assumption.
  - repeat split; assumption.
  - repeat split; assumption.
  - unfold state_after. cbn [perform]. unfold enable.
    rewrite configure_run. cbn. repeat split; reflexivity.
  - unfold state_after. cbn [perform].
    rewrite configure_run. cbn. repeat split; reflexivity.
Qed.

Lemma perform_switch_establishes (r : Request) (st : Radio Band) :
  switches_direction r = true ->
  polarity_consistent (state_after (perform r) st)
  /\ direction_consistent (state_after (perform r) st).
Proof.
  unfold polarity_consistent, direction_consistent, state_after.
  destruct r as [d|f| | | | | | | | |cfg|cfg]; try discriminate; intros _;
    cbn [perform]; unfold enable.
  - rewrite set_direction_run. cbn. repeat split; reflexivity.
  - rewrite configure_run. cbn. repeat split; reflexivity.
  - rewrite configure_run. cbn. repeat split; reflexivity.
Qed.

Lemma perform_all_keeps_consistency (rs : list Request) (st : Radio Band) :
  polarity_consistent st /\ direction_consistent st ->
  polarity_consistent (state_after (perform_all rs) st)
  /\ direction_consistent (state_after (perform_all rs) st).
Proof.
  revert st. induction rs as [|r rs IH]; intros st Hst.
  - exact Hst.
  - cbn [perform_all]. rewrite state_after_bind.
    apply IH. apply perform_keeps_consistency. exact Hst.
Qed.

End Sequences.

(** ** Further properties of radio.cpp *)

Section Further.

Context {Band : Type} {hw : Collaborators Band}.

(** X1.  The last direction switch wins: after [set_direction d1] and
    then [set_direction d2] the state is the one [set_direction d2] alone
    gives.  There is no early exit for an unchanged direction: a repeated
    [set_direction d] makes the same four calls again. *)
Theorem set_direction_last_wins (d1 d2 : rf.Direction) (st : Radio Band) :
  state_after (set_direction d1 ;; set_direction d2) st
  = state_after (set_direction d2) st
  /\ trace (set_direction d2 ;; set_direction d2) st
     = trace (set_direction d2) st ++ trace (set_direction d2) st
  /\ length (trace (set_direction d2) st) = 4%nat.
Proof.
  rewrite state_after_bind, trace_bind.
  unfold state_after, trace.
  rewrite !set_direction_run. cbn [fst snd].
  rewrite ?set_direction_run. cbn.
  repeat split; reflexivity.
Qed.

(** X2.  Tuning twice to the same frequency gives the state and the
    result of tuning once, whether the plan is valid or not and whether
    the second IF stage takes the frequency or not. *)
Theorem set_tuning_frequency_twice (f : rf.Frequency) (st : Radio Band) :
  state_after (set_tuning_frequency f ;; set_tuning_frequency f) st
  = state_after (set_tuning_frequency f) st
  /\ result (set_tuning_frequency f ;; set_tuning_frequency f) st
     = result (set_tuning_frequency f) st.
Proof.
  rewrite state_after_bind, result_bind.
  unfold state_after, result.
  destruct (tuning.is_valid (tuning_config_create f)) eqn:Hvalid.
  - rewrite (set_tuning_frequency_valid f st) by exact Hvalid.
    cbn [fst snd].
    rewrite set_tuning_frequency_valid by exact Hvalid.
    unfold max2839.set_frequency.
    destruct (_ =? 0); destruct (second_lo_in_range _); cbn;
      split; reflexivity.
  - rewrite !set_tuning_frequency_invalid by exact Hvalid.
    split; reflexivity.
Qed.

(** X3.  A tuning request and a direction switch can be made in either
    order: the final state is the same, and so is the result of the
    tuning request. *)
Theorem tuning_and_direction_commute
  (f : rf.Frequency) (d : rf.Direction) (st : Radio Band) :
  state_after (set_tuning_frequency f ;; set_direction d) st
  = state_after (set_direction d ;; set_tuning_frequency f) st
  /\ result (set_direction d ;; set_tuning_frequency f) st
     = result (set_tuning_frequency f) st.
Proof.
  rewrite !state_after_bind, result_bind.
  unfold state_after, result.
  rewrite !set_direction_run. cbn [fst snd].
  destruct (tuning.is_valid (tuning_config_create f)) eqn:Hvalid.
  - rewrite !set_tuning_frequency_valid by exact Hvalid. cbn.
    unfold max2839.set_frequency.
    destruct (_ =? 0); destruct (second_lo_in_range _); cbn;
      split; reflexivity.
  - rewrite !set_tuning_frequency_invalid by exact Hvalid. cbn.
    split; reflexivity.
Qed.

(** X4.  Consistency of the derived state over any sequence of requests.
    If the state is consistent before the sequence, or the sequence
    holds a request that runs [set_direction] ([set_direction],
    [enable], [configure]), then after the sequence the programmable
    logic holds [mixer_invert XOR baseband_invert], [baseband_invert] is
    true exactly for Receive, and the RF path has the stored
    direction. *)
Theorem consistency_of_sequences (rs : list Request) (st : Radio Band)
  (Hstart : (polarity_consistent st /\ direction_consistent st)
            \/ existsb switches_direction rs = true) :
  polarity_consistent (state_after (perform_all rs) st)
  /\ direction_consistent (state_after (perform_all rs) st).
Proof.
  destruct Hstart as [Hst | Hswitch].
  - apply perform_all_keeps_consistency. exact Hst.
  - revert st. induction rs as [|r rs IH]; intros st; [discriminate|].
    cbn [perform_all]. rewrite state_after_bind.
    destruct (switches_direction r) eqn:Hr.
    + apply perform_all_keeps_consistency.
      apply perform_switch_establishes. exact Hr.
    + apply IH. cbn [existsb] in Hswitch. rewrite Hr in Hswitch.
      exact Hswitch.
Qed.

Lemma perform_keeps_direction (r : Request) (st : Radio Band) :
  switches_direction r = false ->
  direction (state_after (perform r) st) = direction st
  /\ baseband_invert (state_after (perform r) st) = baseband_invert st.
Proof.
  destruct r as [d|f| | | | | | | | |cfg|cfg]; try discriminate; intros _;
    try (split; reflexivity).
  rewrite perform_tuning_state.
  destruct (set_tuning_frequency_frame f st)
    as (_ & _ & _ & _ & _ & _ & _ & Hd & Hb).
  split; assumption.
Qed.

Lemma perform_all_keeps_direction (rs : list Request) (st : Radio Band) :
  existsb switches_direction rs = false ->
  direction (state_after (perform_all rs) st) = direction st
  /\ baseband_invert (state_after (perform_all rs) st) = baseband_invert st.
Proof.
  revert st. induction rs as [|r rs IH]; intros st Hquiet.
  - split; reflexivity.
  - cbn [existsb] in Hquiet. apply orb_false_iff in Hquiet.
    destruct Hquiet as [Hr Hrs].
    cbn [perform_all]. rewrite state_after_bind.
    destruct (IH (state_after (perform r) st) Hrs) as [Hd Hb].
    destruct (perform_keeps_direction r st Hr) as [Hd' Hb'].
    split; congruence.
Qed.

(** X5.  Before the first direction switch.  The file-level variables
    start as Receive with [baseband_invert] false, and no request other
    than [set_direction], [enable] and [configure] changes either.  A
    valid tuning request made then writes the plan's [mixer_invert]
    itself to the programmable logic, the opposite of the bit a
    [set_direction Receive] writes afterwards. *)
Theorem tuning_before_first_direction
  (rs : list Request) (f : rf.Frequency) (st : Radio Band)
  (Hstart : statics_at_start st)
  (Hquiet : existsb switches_direction rs = false)
  (Hvalid : tuning.is_valid (tuning_config_create f) = true) :
  let tuned := state_after (perform_all rs ;; set_tuning_frequency f) st in
  direction tuned = rf.Receive
  /\ baseband_invert tuned = false
  /\ baseband.invert (baseband_cpld tuned)
     = tuning.mixer_invert (tuning_config_create f)
  /\ baseband.invert
       (baseband_cpld (state_after (set_direction rf.Receive) tuned))
     = negb (tuning.mixer_invert (tuning_config_create f)).
Proof.
  cbv zeta. rewrite state_after_bind.
  destruct Hstart as (Hd & Hb & _).
  destruct (perform_all_keeps_direction rs st Hquiet) as [Hd' Hb'].
  rewrite Hd in Hd'. rewrite Hb in Hb'.
  set (before := state_after (perform_all rs) st) in *.
  unfold state_after at 1 2 3 4.
  rewrite set_direction_run.
  unfold state_after.
  rewrite set_tuning_frequency_valid by exact Hvalid. cbn.
  rewrite Hb'.
  destruct (tuning.mixer_invert (tuning_config_create f));
    repeat split; assumption || reflexivity.
Qed.






(** X8.  [enable cfg] after [disable], for a configuration whose
    frequency has a valid plan, brings back everything [disable] turned
    off except the antenna bias: the state is the one [enable cfg] gives
    without the [disable], with the pin left high. *)
Theorem enable_after_disable (cfg : Configuration.t) (st : Radio Band)
  (Hvalid :
     tuning.is_valid
       (tuning_config_create (Configuration.tuning_frequency cfg)) = true) :
  state_after (disable ;; enable cfg) st
  = with_gpio_not_ant_pwr 1 (state_after (enable cfg) st)
  /\ antenna_bias_on (state_after (disable ;; enable cfg) st) = false.
Proof.
  rewrite state_after_bind.
  unfold enable, state_after.
  rewrite disable_run. cbn [fst snd].
  rewrite !configure_run. cbn [fst snd].
  unfold state_after.
  rewrite !set_tuning_frequency_valid by exact Hvalid.
  unfold max2839.set_frequency.
  destruct (_ =? 0); destruct (second_lo_in_range _); cbn;
    split; reflexivity.
Qed.


End Further.

(** X10.  [debug::second_if::temp_sense] returns a 5-bit value: whatever
    the stage reads, negative readings included, the result lies in
    0..31 and is the reading modulo 32 (so a reading already in 0..31
    comes back unchanged). *)
Theorem temp_sense_five_bits (reading : Z) :
  0 <= debug.second_if.temp_sense reading <= 31
  /\ debug.second_if.temp_sense reading = reading mod 32.
Proof.
  unfold debug.second_if.temp_sense.
  assert (Hland : Z.land reading 0x1f = reading mod 32).
  { change 0x1f with (Z.ones 5). rewrite Z.land_ones by lia. reflexivity. }
  rewrite Hland. change (2 ^ 8) with 256.
  assert (Hbound : 0 <= reading mod 32 < 32) by (apply Z.mod_pos_bound; lia).
  rewrite (Z.mod_small (reading mod 32) 256) by lia.
  repeat split; lia.
Qed.

(** ** The further statements with a hypothesis, exercised on the bench *)

(** From power-on, where [baseband_invert] does not yet follow the
    direction, the session contains a [configure]. *)
Lemma consistency_of_sequences_witness :
  existsb switches_direction bench.session = true
  /\ polarity_consistent
       (state_after (perform_all bench.session) bench.power_on)
  /\ direction_consistent
       (state_after (perform_all bench.session) bench.power_on).
Proof.
  split; [reflexivity|].
  apply (consistency_of_sequences (hw := bench.stages)
           bench.session bench.power_on).
  right. reflexivity.
Defined.

(** From power-on, after two gain requests, 98.5 MHz (an inverting plan)
    writes [true]; the Receive direction needs [false]. *)
Lemma tuning_before_first_direction_witness :
  statics_at_start bench.power_on
  /\ baseband.invert
       (baseband_cpld
          (state_after
             (perform_all [do_set_lna_gain 24; do_set_rf_amp true] ;;
              set_tuning_frequency 98500000) bench.power_on))
     = true.
Proof.
  split; [repeat split; reflexivity|].
  destruct (tuning_before_first_direction (hw := bench.stages)
              [do_set_lna_gain 24; do_set_rf_amp true] 98500000
              bench.power_on
              (conj eq_refl (conj eq_refl eq_refl)) eq_refl eq_refl)
    as (_ & _ & Hbit & _).
  rewrite Hbit. reflexivity.
Defined.



Lemma enable_after_disable_witness :
  tuning.is_valid
    (tuning_config_create (Band := bench.Band)
       (Configuration.tuning_frequency bench.fm_broadcast)) = true
  /\ state_after (disable ;; enable bench.fm_broadcast) bench.on_air
     = with_gpio_not_ant_pwr 1
         (state_after (enable bench.fm_broadcast) bench.on_air)
  /\ antenna_bias_on
       (state_after (disable ;; enable bench.fm_broadcast) bench.on_air)
     = false.
Proof.
  split; [reflexivity|].
  apply (enable_after_disable (hw := bench.stages)
           bench.fm_broadcast bench.on_air).
  reflexivity.
Defined.

